(** * The AssemblyScript toolchain of the compute package

    A shallow embedding of [pkg/compute/assemblyscript.go].  The toolchain
    talks to the host machine only through a handful of library calls
    ([exec.LookPath], [filepath.Abs], [common.FileExists], [os.Getwd],
    [exec.Command], [common.NewStreamingExec], ...).  Those calls are the
    fields of a host interface over an abstract machine state; the
    toolchain's methods are written in a small state monad over a [World]
    that carries the machine state, the journal of library calls made so
    far and the text written to the [io.Writer]. *)

From Stdlib Require Import String Ascii List Bool Arith Lia.
Import ListNotations.
Open Scope string_scope.

(** ** Errors *)

(** Go's [error] values as this file builds them.  [SysError] stands for an
    error value produced outside the package (os, os/exec, path/filepath,
    pkg/common); [Errorf] is [fmt.Errorf] with a plain message; [Wrapf] is
    [fmt.Errorf("<context>: %w", err)]; [RemediationError] is the struct of
    pkg/errors with the two fields this file sets. *)
Inductive error : Type :=
| SysError (msg : string)
| Errorf (msg : string)
| Wrapf (context : string) (err : error)
| RemediationError (Inner : error) (Remediation : string).

(** A Go [(T, error)] pair in which exactly one side is meaningful. *)
Inductive result (A : Type) : Type :=
| Ok (a : A)
| Err (e : error).
Arguments Ok {A} a.
Arguments Err {A} e.

(** The dynamic type of the error value is [RemediationError]. *)
Definition is_remediation (e : error) : bool :=
  match e with
  | RemediationError _ _ => true
  | _ => false
  end.

(** [errors.As(err, &RemediationError{})]: the first remediation error on the
    [%w] chain, if any. *)
Fixpoint as_remediation (e : error) : option error :=
  match e with
  | RemediationError _ _ => Some e
  | Wrapf _ inner => as_remediation inner
  | _ => None
  end.

(** ** Data of the toolchain contract *)

Record StarterKit : Type := mkStarterKit {
  kit_Name : string;
  kit_Path : string;
  kit_Tag : string
}.

(** [type AssemblyScript struct{}] *)
Inductive AssemblyScript : Type := mkAssemblyScript.

Definition Name (a : AssemblyScript) : string := "assemblyscript".

Definition DisplayName (a : AssemblyScript) : string := "AssemblyScript (beta)".

Definition StarterKits (a : AssemblyScript) : list StarterKit :=
  [ {| kit_Name := "Default";
       kit_Path := "https://github.com/fastly/compute-starter-kit-assemblyscript-default";
       kit_Tag := "v0.1.0" |} ].

Definition SourceDirectory (a : AssemblyScript) : string := "src".

Definition IncludeFiles (a : AssemblyScript) : list string := ["package.json"].

(** ** The host *)

Definition LF : string := String (ascii_of_nat 10) EmptyString.
Definition TAB : string := String (ascii_of_nat 9) EmptyString.

(** Pure library functions the file calls.  They are taken as parameters:
    [text.Bold] depends on the terminal, [filepath.Join] and
    [strings.TrimSpace] are the standard library's. *)
Record Lib : Type := mkLib {
  text_Bold : string -> string;
  filepath_Join : string -> string -> string;
  strings_TrimSpace : string -> string
}.

(** The calls that reach the machine, over a machine state [S].  The first
    five only read; the rest run a subprocess or create a directory and so
    return the next state.  [common_Exec] is [StreamingExec.Exec]: it also
    yields what the child wrote to the [io.Writer] it was given. *)
Record Host (S : Type) : Type := mkHost {
  exec_LookPath : string -> S -> result string;
  filepath_Abs : string -> S -> result string;
  os_Getwd : S -> result string;
  common_FileExists : string -> S -> bool;
  os_IsDir : string -> S -> bool;
  os_MkdirAll : string -> S -> option error * S;
  exec_Output : string -> list string -> S -> result string * S;
  exec_Start : string -> list string -> S -> option error * S;
  exec_Wait : string -> list string -> S -> option error * S;
  common_Exec : string -> list string -> list string -> bool -> S ->
                option error * list string * S
}.
Arguments exec_LookPath {S} _ _ _.
Arguments filepath_Abs {S} _ _ _.
Arguments os_Getwd {S} _ _.
Arguments common_FileExists {S} _ _ _.
Arguments os_IsDir {S} _ _ _.
Arguments os_MkdirAll {S} _ _ _.
Arguments exec_Output {S} _ _ _ _.
Arguments exec_Start {S} _ _ _ _.
Arguments exec_Wait {S} _ _ _ _.
Arguments common_Exec {S} _ _ _ _ _ _.

(** The journal of calls that reached the machine. *)
Inductive Call : Type :=
| CallLookPath (file : string)
| CallAbs (path : string)
| CallGetwd
| CallFileExists (path : string)
| CallIsDir (path : string)
| CallMkdirAll (path : string) (created : bool)
| CallOutput (name : string) (args : list string)
| CallStart (name : string) (args : list string)
| CallWait (name : string) (args : list string)
| CallExec (command : string) (args env : list string) (verbose : bool).

(** A call that starts (or tries to start) a child process. *)
Definition is_subprocess (c : Call) : bool :=
  match c with
  | CallOutput _ _ | CallStart _ _ | CallWait _ _ | CallExec _ _ _ _ => true
  | _ => false
  end.

(** A call that may write to the file system. *)
Definition is_write (c : Call) : bool :=
  match c with
  | CallMkdirAll _ _ => true
  | _ => is_subprocess c
  end.


Record World (S : Type) : Type := mkWorld {
  machine : S;
  calls : list Call;
  out : list string
}.
Arguments mkWorld {S} _ _ _.
Arguments machine {S} _.
Arguments calls {S} _.
Arguments out {S} _.

(** ** The monad *)

Definition M (S A : Type) : Type := World S -> A * World S.

Definition ret {S A : Type} (a : A) : M S A := fun w => (a, w).

Definition bind {S A B : Type} (m : M S A) (f : A -> M S B) : M S B :=
  fun w => let (a, w') := m w in f a w'.

Notation "x <- m ;; k" := (bind m (fun x => k))
  (at level 61, m at next level, right associativity).
Notation "m ;;; k" := (bind m (fun _ => k))
  (at level 61, right associativity).

Section Toolchain.

Context {S : Type}.
Variable L : Lib.
Variable H : Host S.

Definition note (c : Call) (w : World S) : World S :=
  mkWorld (machine w) (calls w ++ [c]) (out w).

(** [fmt.Fprintf(out, s)] *)
Definition Fprintf (s : string) : M S unit :=
  fun w => (tt, mkWorld (machine w) (calls w) (out w ++ [s])).

Definition LookPath (file : string) : M S (result string) :=
  fun w => (exec_LookPath H file (machine w), note (CallLookPath file) w).

Definition Abs (path : string) : M S (result string) :=
  fun w => (filepath_Abs H path (machine w), note (CallAbs path) w).

Definition Getwd : M S (result string) :=
  fun w => (os_Getwd H (machine w), note CallGetwd w).

Definition FileExists (path : string) : M S bool :=
  fun w => (common_FileExists H path (machine w), note (CallFileExists path) w).

Definition IsDir (path : string) : M S bool :=
  fun w => (os_IsDir H path (machine w), note (CallIsDir path) w).

Definition MkdirAll (path : string) : M S (option error) :=
  fun w =>
    let (e, s') := os_MkdirAll H path (machine w) in
    (e, mkWorld s' (calls w ++ [CallMkdirAll path
                                  (match e with None => true | Some _ => false end)])
                (out w)).

(** [exec.Command(name, args...).Output()] *)
Definition Output (name : string) (args : list string) : M S (result string) :=
  fun w =>
    let (r, s') := exec_Output H name args (machine w) in
    (r, mkWorld s' (calls w ++ [CallOutput name args]) (out w)).

(** [cmd.Start()] for [cmd := exec.Command(name, args...)] *)
Definition Start (name : string) (args : list string) : M S (option error) :=
  fun w =>
    let (e, s') := exec_Start H name args (machine w) in
    (e, mkWorld s' (calls w ++ [CallStart name args]) (out w)).

(** [cmd.Wait()] *)
Definition Wait (name : string) (args : list string) : M S (option error) :=
  fun w =>
    let (e, s') := exec_Wait H name args (machine w) in
    (e, mkWorld s' (calls w ++ [CallWait name args]) (out w)).

(** [common.NewStreamingExec(command, args, env, verbose, out).Exec()] *)
Definition Exec (command : string) (args env : list string) (verbose : bool)
  : M S (option error) :=
  fun w =>
    let '(e, written, s') := common_Exec H command args env verbose (machine w) in
    (e, mkWorld s' (calls w ++ [CallExec command args env verbose])
                (out w ++ written)).

(** Modelled from the spec: [common.MakeDirectoryIfNotExists] is not part of
    this file.  The spec has it "ensure an output directory exists (create
    if absent ...)": nothing is created when the directory is there, and a
    failed creation is reported as an error. *)
Definition MakeDirectoryIfNotExists (path : string) : M S (option error) :=
  there <- IsDir path ;;
  if there then ret None else MkdirAll path.

(** ** getNpmBinPath and checkPackageDependencyExists *)

Definition getNpmBinPath : M S (result string) :=
  r <- Output "npm" ["bin"] ;;
  match r with
  | Err err => ret (Err (Wrapf "error getting npm bin path" err))
  | Ok path => ret (Ok (strings_TrimSpace L path))
  end.

Definition checkPackageDependencyExists (name : string) : M S bool :=
  let cmd := ["link"; "--json"; "--depth"; "0"; name] in
  e <- Start "npm" cmd ;;
  match e with
  | Some _ => ret false
  | None =>
      e' <- Wait "npm" cmd ;;
      match e' with
      | Some _ => ret false
      | None => ret true
      end
  end.

(** ** Verify *)

(** The remediation sentences, as [fmt.Sprintf] builds them. *)
Definition visit (url : string) : string :=
  "To fix this error, install Node.js and npm by visiting:"
    ++ LF ++ LF ++ TAB ++ "$ " ++ text_Bold L url.

Definition run_command (command : string) : string :=
  "To fix this error, run the following command:"
    ++ LF ++ LF ++ TAB ++ "$ " ++ text_Bold L command.

Definition Verify (a : AssemblyScript) : M S (option error) :=
  (* 1) Check `npm` is on $PATH *)
  Fprintf ("Checking if npm is installed..." ++ LF) ;;;
  r <- LookPath "npm" ;;
  match r with
  | Err _ =>
      ret (Some (RemediationError (Errorf "`npm` not found in $PATH")
                                  (visit "https://nodejs.org/")))
  | Ok p =>
      Fprintf ("Found npm at " ++ p ++ LF) ;;;
      (* 2) Check package.json file exists in $PWD *)
      r <- Abs "package.json" ;;
      match r with
      | Err err => ret (Some (Wrapf "getting package.json path" err))
      | Ok fpath =>
          present <- FileExists fpath ;;
          if negb present then
            ret (Some (RemediationError (Errorf "package.json not found")
                                        (run_command "npm init")))
          else
            Fprintf ("Found package.json at " ++ fpath ++ LF) ;;;
            (* 3) Check if `asc` is installed. *)
            Fprintf ("Checking if AssemblyScript is installed..." ++ LF) ;;;
            declared <- checkPackageDependencyExists "assemblyscript" ;;
            if negb declared then
              ret (Some (RemediationError
                           (Errorf "`assemblyscript` not found in package.json")
                           (run_command "npm install --save-dev assemblyscript")))
            else
              r <- getNpmBinPath ;;
              match r with
              | Err _ =>
                  ret (Some (RemediationError
                               (Errorf "could not determine npm bin path")
                               (run_command "npm install --global npm@latest")))
              | Ok p =>
                  r <- LookPath (filepath_Join L p "asc") ;;
                  match r with
                  | Err err => ret (Some (Wrapf "getting asc path" err))
                  | Ok path =>
                      present <- FileExists path ;;
                      if negb present then
                        ret (Some (RemediationError
                                     (Errorf ("`asc` binary not found in " ++ p))
                                     (run_command
                                        "npm install --save-dev assemblyscript")))
                      else
                        Fprintf ("Found asc at " ++ path ++ LF) ;;;
                        ret None
                  end
              end
      end
  end.

(** ** Initialize *)

Definition Initialize (a : AssemblyScript) : M S (option error) :=
  (* 1) Check `npm` is on $PATH *)
  Fprintf ("Checking if npm is installed..." ++ LF) ;;;
  r <- LookPath "npm" ;;
  match r with
  | Err _ =>
      ret (Some (RemediationError (Errorf "`npm` not found in $PATH")
                                  (visit "https://nodejs.org/")))
  | Ok p =>
      Fprintf ("Found npm at " ++ p ++ LF) ;;;
      (* 2) Check package.json file exists in $PWD *)
      r <- Abs "package.json" ;;
      match r with
      | Err err => ret (Some (Wrapf "getting package.json path" err))
      | Ok fpath =>
          present <- FileExists fpath ;;
          if negb present then
            ret (Some (RemediationError (Errorf "package.json not found")
                                        (run_command "npm init")))
          else
            Fprintf ("Found package.json at " ++ fpath ++ LF) ;;;
            (* Call npm install. *)
            e <- Exec "npm" ["install"] [] false ;;
            match e with
            | Some err => ret (Some err)
            | None => ret None
            end
      end
  end.

(** ** Build *)

Definition Build (a : AssemblyScript) (verbose : bool) : M S (option error) :=
  (* Check if bin directory exists and create if not. *)
  r <- Getwd ;;
  match r with
  | Err err => ret (Some (Wrapf "error getting current working directory" err))
  | Ok pwd =>
      let binDir := filepath_Join L pwd "bin" in
      e <- MakeDirectoryIfNotExists binDir ;;
      match e with
      | Some err => ret (Some (Wrapf "error making bin directory" err))
      | None =>
          r <- getNpmBinPath ;;
          match r with
          | Err err => ret (Some err)
          | Ok npmdir =>
              let args := [ "src/index.ts";
                            "--binaryFile";
                            filepath_Join L binDir "main.wasm";
                            "--optimize";
                            "--noAssert" ] in
              let args := if verbose then (args ++ ["--verbose"])%list else args in
              (* Call asc with the build arguments. *)
              e <- Exec (filepath_Join L npmdir "asc") args [] verbose ;;
              match e with
              | Some err => ret (Some err)
              | None => ret None
              end
          end
      end
  end.

(** ** Scenarios and shared shapes *)

(** The first two checks (the package manager is on the path, the manifest
    is there), with the lines they print, as Verify and Initialize both spell
    them out. *)
Definition manifest_checks : M S (option error) :=
  Fprintf ("Checking if npm is installed..." ++ LF) ;;;
  r <- LookPath "npm" ;;
  match r with
  | Err _ =>
      ret (Some (RemediationError (Errorf "`npm` not found in $PATH")
                                  (visit "https://nodejs.org/")))
  | Ok p =>
      Fprintf ("Found npm at " ++ p ++ LF) ;;;
      r <- Abs "package.json" ;;
      match r with
      | Err err => ret (Some (Wrapf "getting package.json path" err))
      | Ok fpath =>
          present <- FileExists fpath ;;
          if negb present then
            ret (Some (RemediationError (Errorf "package.json not found")
                                        (run_command "npm init")))
          else
            Fprintf ("Found package.json at " ++ fpath ++ LF) ;;;
            ret None
      end
  end.

(** Checks three and four (the compiler is declared, the compiler binary
    is in the bin directory), as Verify spells them out after the first two. *)
Definition compiler_checks : M S (option error) :=
  Fprintf ("Checking if AssemblyScript is installed..." ++ LF) ;;;
  declared <- checkPackageDependencyExists "assemblyscript" ;;
  if negb declared then
    ret (Some (RemediationError
                 (Errorf "`assemblyscript` not found in package.json")
                 (run_command "npm install --save-dev assemblyscript")))
  else
    r <- getNpmBinPath ;;
    match r with
    | Err _ =>
        ret (Some (RemediationError
                     (Errorf "could not determine npm bin path")
                     (run_command "npm install --global npm@latest")))
    | Ok p =>
        r <- LookPath (filepath_Join L p "asc") ;;
        match r with
        | Err err => ret (Some (Wrapf "getting asc path" err))
        | Ok path =>
            present <- FileExists path ;;
            if negb present then
              ret (Some (RemediationError
                           (Errorf ("`asc` binary not found in " ++ p))
                           (run_command "npm install --save-dev assemblyscript")))
            else
              Fprintf ("Found asc at " ++ path ++ LF) ;;;
              ret None
        end
    end.

(** Run [k] only when [m] reported no error, else return that error. *)
Definition and_then (m k : M S (option error)) : M S (option error) :=
  e <- m ;;
  match e with
  | Some err => ret (Some err)
  | None => k
  end.

(** Everything Verify looks at is in place: [npm] resolves to [p], the
    manifest path resolves to [fpath] and the file is there, the probe starts
    and exits cleanly (machine states [s1], [s2]), [npm bin] prints [raw]
    (state [s3]), and the compiler is found at [path] in that directory. *)
Definition ready_to_build (w : World S) (p fpath : string) (s1 s2 : S)
    (raw : string) (s3 : S) (path : string) : Prop :=
  exec_LookPath H "npm" (machine w) = Ok p /\
  filepath_Abs H "package.json" (machine w) = Ok fpath /\
  common_FileExists H fpath (machine w) = true /\
  exec_Start H "npm" ["link"; "--json"; "--depth"; "0"; "assemblyscript"]
             (machine w) = (None, s1) /\
  exec_Wait H "npm" ["link"; "--json"; "--depth"; "0"; "assemblyscript"] s1
    = (None, s2) /\
  exec_Output H "npm" ["bin"] s2 = (Ok raw, s3) /\
  exec_LookPath H (filepath_Join L (strings_TrimSpace L raw) "asc") s3 = Ok path /\
  common_FileExists H path s3 = true.


End Toolchain.

(** The calls made between two worlds of one run. *)
Definition since {S : Type} (w w' : World S) : list Call :=
  skipn (length (calls w)) (calls w').

Definition no_subprocess (cs : list Call) : bool :=
  forallb (fun c => negb (is_subprocess c)) cs.

Definition no_write (cs : list Call) : bool :=
  forallb (fun c => negb (is_write c)) cs.

(** What was written to the [io.Writer] between two worlds of one run. *)
Definition written {S : Type} (w w' : World S) : list string :=
  skipn (length (out w)) (out w').

(** How often a flag occurs in an argument list. *)
Definition occurrences (flag : string) (args : list string) : nat :=
  length (filter (String.eqb flag) args).

(** ** A machine to run the toolchain on *)

Module Fixture.

(** A small file system, a search path and the answers of the package
    manager. *)
Record Machine : Type := mkMachine {
  m_path : list (string * string);
  m_cwd : option string;
  m_files : list string;
  m_dirs : list string;
  m_readonly : bool;
  m_linked : list string;
  m_npm_bin : option string
}.

Definition has (x : string) (l : list string) : bool :=
  existsb (String.eqb x) l.

Fixpoint assoc (x : string) (l : list (string * string)) : option string :=
  match l with
  | [] => None
  | (k, v) :: l' => if String.eqb x k then Some v else assoc x l'
  end.

Definition with_dir (d : string) (m : Machine) : Machine :=
  mkMachine (m_path m) (m_cwd m) (m_files m) (d :: m_dirs m)
            (m_readonly m) (m_linked m) (m_npm_bin m).

Definition with_file (f : string) (m : Machine) : Machine :=
  mkMachine (m_path m) (m_cwd m) (f :: m_files m) (m_dirs m)
            (m_readonly m) (m_linked m) (m_npm_bin m).

(** [exec.LookPath]: a name with a separator is checked as it stands, a bare
    name is searched on the path. *)
Definition lookPath (file : string) (m : Machine) : result string :=
  match index 0 "/" file with
  | Some _ =>
      if has file (m_files m) then Ok file
      else Err (SysError ("stat " ++ file ++ ": no such file or directory"))
  | None =>
      match assoc file (m_path m) with
      | Some p => Ok p
      | None => Err (SysError "executable file not found in $PATH")
      end
  end.

Definition getwd (m : Machine) : result string :=
  match m_cwd m with
  | Some d => Ok d
  | None => Err (SysError "getwd: no such file or directory")
  end.

Definition abs (path : string) (m : Machine) : result string :=
  match getwd m with
  | Ok d => Ok (d ++ "/" ++ path)
  | Err e => Err e
  end.

Definition mkdirAll (path : string) (m : Machine) : option error * Machine :=
  if m_readonly m then (Some (SysError ("mkdir " ++ path ++ ": permission denied")), m)
  else (None, with_dir path m).

Definition output (name : string) (args : list string) (m : Machine)
  : result string * Machine :=
  match assoc name (m_path m), m_npm_bin m with
  | Some _, Some d => (Ok (d ++ LF), m)
  | Some _, None => (Err (SysError "exit status 1"), m)
  | None, _ => (Err (SysError "executable file not found in $PATH"), m)
  end.

Definition start (name : string) (args : list string) (m : Machine)
  : option error * Machine :=
  match assoc name (m_path m) with
  | Some _ => (None, m)
  | None => (Some (SysError "executable file not found in $PATH"), m)
  end.

Definition wait (name : string) (args : list string) (m : Machine)
  : option error * Machine :=
  if has (last args "") (m_linked m) then (None, m)
  else (Some (SysError "exit status 1"), m).

(** The compiler writes the file named after [--binaryFile]; any other
    command leaves the files alone. *)
Definition exec (command : string) (args env : list string) (verbose : bool)
                (m : Machine) : option error * list string * Machine :=
  match lookPath command m with
  | Err e => (Some e, [], m)
  | Ok _ =>
      if String.eqb (nth 1 args "") "--binaryFile" then
        let target := nth 2 args "" in
        (None, if verbose then ["compiled " ++ target ++ LF] else [],
         with_file target m)
      else (None, [], m)
  end.

Definition host : Host Machine :=
  mkHost Machine lookPath abs getwd
         (fun p m => has p (m_files m))
         (fun p m => has p (m_dirs m))
         mkdirAll output start wait exec.

Definition is_space (c : ascii) : bool :=
  let n := nat_of_ascii c in
  ((n =? 32) || ((9 <=? n) && (n <=? 13)))%nat.

Fixpoint trim_left (s : string) : string :=
  match s with
  | String c s' => if is_space c then trim_left s' else s
  | EmptyString => EmptyString
  end.

Fixpoint trim_right (s : string) : string :=
  match s with
  | String c s' =>
      match trim_right s' with
      | EmptyString => if is_space c then EmptyString else String c EmptyString
      | t => String c t
      end
  | EmptyString => EmptyString
  end.

(** No colour (the writer is not a terminal), [/] as the separator. *)
Definition lib : Lib :=
  mkLib (fun s => s) (fun a b => a ++ "/" ++ b) (fun s => trim_right (trim_left s)).

(** A project that is ready to build. *)
Definition ready : Machine :=
  mkMachine [("npm", "/usr/bin/npm")] (Some "/proj")
            ["/usr/bin/npm"; "/proj/package.json"; "/proj/node_modules/.bin/asc"]
            [] false ["assemblyscript"] (Some "/proj/node_modules/.bin").

(** The same project before [npm install] put the compiler in place. *)
Definition no_asc : Machine :=
  mkMachine [("npm", "/usr/bin/npm")] (Some "/proj")
            ["/usr/bin/npm"; "/proj/package.json"]
            [] false ["assemblyscript"] (Some "/proj/node_modules/.bin").

(** A directory without a manifest. *)
Definition no_manifest : Machine :=
  mkMachine [("npm", "/usr/bin/npm")] (Some "/proj")
            ["/usr/bin/npm"] [] false [] (Some "/proj/node_modules/.bin").

(** A machine without Node.js. *)
Definition no_npm : Machine :=
  mkMachine [] (Some "/proj") ["/proj/package.json"] [] false [] None.

(** A ready project whose [npm bin] fails. *)
Definition no_bin : Machine :=
  mkMachine [("npm", "/usr/bin/npm")] (Some "/proj")
            ["/usr/bin/npm"; "/proj/package.json"]
            [] false ["assemblyscript"] None.

(** A ready project in a directory that cannot be written. *)
Definition readonly : Machine :=
  mkMachine [("npm", "/usr/bin/npm")] (Some "/proj")
            ["/usr/bin/npm"; "/proj/package.json"; "/proj/node_modules/.bin/asc"]
            [] true ["assemblyscript"] (Some "/proj/node_modules/.bin").

Definition boot (m : Machine) : World Machine := mkWorld m [] [].

End Fixture.

(** ** The order of Verify's calls *)

(** The calls of a Verify run that passes every check, for a manifest at
    [fpath], a bin directory [bin] and a compiler at [path]. *)
Definition verify_journal (L : Lib) (fpath bin path : string) : list Call :=
  [ CallLookPath "npm";
    CallAbs "package.json";
    CallFileExists fpath;
    CallStart "npm" ["link"; "--json"; "--depth"; "0"; "assemblyscript"];
    CallWait "npm" ["link"; "--json"; "--depth"; "0"; "assemblyscript"];
    CallOutput "npm" ["bin"];
    CallLookPath (filepath_Join L bin "asc");
    CallFileExists path ].

(** The argument list of the compiler, for a working directory and a
    verbosity. *)
Definition compiler_args (L : Lib) (pwd : string) (verbose : bool) : list string :=
  ([ "src/index.ts"; "--binaryFile";
     filepath_Join L (filepath_Join L pwd "bin") "main.wasm";
     "--optimize"; "--noAssert" ] ++ (if verbose then ["--verbose"] else []))%list.

(** The checks before [npm bin] pass: [npm] is found at [p], the manifest
    at [fpath], and the probe starts and exits cleanly, taking the machine to
    [s1] and then [s2]. *)
Definition declared {S : Type} (H : Host S) (w : World S) (p fpath : string)
    (s1 s2 : S) : Prop :=
  exec_LookPath H "npm" (machine w) = Ok p /\
  filepath_Abs H "package.json" (machine w) = Ok fpath /\
  common_FileExists H fpath (machine w) = true /\
  exec_Start H "npm" ["link"; "--json"; "--depth"; "0"; "assemblyscript"]
             (machine w) = (None, s1) /\
  exec_Wait H "npm" ["link"; "--json"; "--depth"; "0"; "assemblyscript"] s1
    = (None, s2).

(** ** More machines *)

Module Oddities.

(** A host on which the compiler's place is taken by something the path
    lookup accepts (it has the execute bit) and the existence test does not
    (it is no regular file), a named pipe say. *)
Definition lookPath (file : string) (m : Fixture.Machine) : result string :=
  if String.eqb file "/proj/node_modules/.bin/asc" then Ok file
  else Fixture.lookPath file m.

Definition host : Host Fixture.Machine :=
  mkHost Fixture.Machine lookPath Fixture.abs Fixture.getwd
         (fun p m => Fixture.has p (Fixture.m_files m))
         (fun p m => Fixture.has p (Fixture.m_dirs m))
         Fixture.mkdirAll Fixture.output Fixture.start Fixture.wait Fixture.exec.

(** A ready project whose working directory has been removed under it. *)
Definition lost : Fixture.Machine :=
  Fixture.mkMachine [("npm", "/usr/bin/npm")] None
    ["/usr/bin/npm"; "/proj/package.json"; "/proj/node_modules/.bin/asc"]
    [] false ["assemblyscript"] (Some "/proj/node_modules/.bin").

(** A project with a manifest that does not declare the compiler. *)
Definition undeclared : Fixture.Machine :=
  Fixture.mkMachine [("npm", "/usr/bin/npm")] (Some "/proj")
    ["/usr/bin/npm"; "/proj/package.json"]
    [] false [] (Some "/proj/node_modules/.bin").

(** A directory without a manifest that has been removed under the
    process: there is no working directory to resolve a path against. *)
Definition adrift : Fixture.Machine :=
  Fixture.mkMachine [("npm", "/usr/bin/npm")] None
    ["/usr/bin/npm"] [] false [] (Some "/proj/node_modules/.bin").

End Oddities.

(** * Properties *)

Lemma skipn_length_app {A : Type} (l k : list A) : skipn (length l) (l ++ k) = k.
Proof.
  induction l as [|x l IH]; simpl; [reflexivity | exact IH].
Qed.

Lemma since_app {S : Type} (w : World S) (s : S) (cs : list Call) (o : list string) :
  since w (mkWorld s (calls w ++ cs) o) = cs.
Proof.
  unfold since; simpl. apply skipn_length_app.
Qed.

Lemma written_app {S : Type} (w : World S) (s : S) (cs : list Call) (o : list string) :
  written w (mkWorld s cs (out w ++ o)) = o.
Proof.
  unfold written; simpl. apply skipn_length_app.
Qed.

Ltac unfold_calls :=
  unfold getNpmBinPath, checkPackageDependencyExists, MakeDirectoryIfNotExists,
    bind, ret, Fprintf, LookPath, Abs, Getwd, FileExists, IsDir, MkdirAll,
    Output, Start, Wait, Exec, note in *; simpl in *.

(** Go through the entries of a literal journal, dropping the ones of
    another shape. *)
Ltac in_journal Hin :=
  simpl in Hin;
  repeat (destruct Hin as [Hin|Hin]; [try discriminate Hin|]);
  try contradiction.

(** ** The descriptor *)

(** C10: the accessors of the toolchain descriptor are constants.  For every
    receiver, [Name] is "assemblyscript", [DisplayName] is
    "AssemblyScript (beta)", [SourceDirectory] is "src", [IncludeFiles] is the
    one-element list ["package.json"] and [StarterKits] is a one-element list
    whose kit has a name, a repository locator and a version tag; none of them
    reads the world, so two calls give equal values whatever ran in between. *)
Theorem descriptor_constant (a b : AssemblyScript) :
  Name a = "assemblyscript" /\
  DisplayName a = "AssemblyScript (beta)" /\
  SourceDirectory a = "src" /\
  IncludeFiles a = ["package.json"] /\
  StarterKits a =
    [mkStarterKit "Default"
       "https://github.com/fastly/compute-starter-kit-assemblyscript-default"
       "v0.1.0"] /\
  length (StarterKits a) = 1 /\
  Forall (fun k => kit_Name k <> "" /\ kit_Path k <> "" /\ kit_Tag k <> "")
         (StarterKits a) /\
  (Name a = Name b /\ DisplayName a = DisplayName b /\
   SourceDirectory a = SourceDirectory b /\ IncludeFiles a = IncludeFiles b /\
   StarterKits a = StarterKits b).
Proof.
  repeat split; try reflexivity.
  constructor; [|constructor].
  repeat split; discriminate.
Qed.

Section Properties.

Context {S : Type}.
Variable L : Lib.
Variable H : Host S.

(** ** The dependency probe *)

(** C6: for every package name the probe returns a boolean.  When the
    subprocess cannot be started the answer is [false] and nothing is waited
    for; otherwise the answer is [true] exactly when waiting for the
    subprocess reports no error. *)
Theorem probe_is_boolean (name : string) (w : World S) :
  let cmd := ["link"; "--json"; "--depth"; "0"; name] in
  let started := exec_Start H "npm" cmd (machine w) in
  let exited := exec_Wait H "npm" cmd (snd started) in
  let run := checkPackageDependencyExists H name w in
  match fst started with
  | Some _ =>
      fst run = false /\
      since w (snd run) = [CallStart "npm" cmd] /\
      machine (snd run) = snd started
  | None =>
      (fst run = true <-> fst exited = None) /\
      since w (snd run) = [CallStart "npm" cmd; CallWait "npm" cmd] /\
      machine (snd run) = snd exited
  end.
Proof.
  unfold_calls.
  destruct (exec_Start H "npm" _ (machine w)) as [[e|] s1]; simpl.
  - repeat split. apply since_app.
  - destruct (exec_Wait H "npm" _ s1) as [[e|] s2]; simpl;
      rewrite <- app_assoc; simpl; rewrite since_app;
      repeat split; intros; congruence.
Qed.

(** ** Verify and Initialize: the first two checks *)

(** C2: when [npm] is not on the search path, Verify and Initialize both
    return a RemediationError whose remediation points at
    https://nodejs.org/; the only call that reached the machine is the path
    lookup, so nothing was written and the machine is as it was. *)
Theorem npm_missing (a : AssemblyScript) (w : World S) (e : error) :
  exec_LookPath H "npm" (machine w) = Err e ->
  let fix_it :=
    "To fix this error, install Node.js and npm by visiting:"
      ++ LF ++ LF ++ TAB ++ "$ " ++ text_Bold L "https://nodejs.org/" in
  let failure := RemediationError (Errorf "`npm` not found in $PATH") fix_it in
  let v := Verify L H a w in
  let i := Initialize L H a w in
  fst v = Some failure /\ fst i = Some failure /\
  is_remediation failure = true /\
  since w (snd v) = [CallLookPath "npm"] /\
  since w (snd i) = [CallLookPath "npm"] /\
  no_write (since w (snd v)) = true /\
  no_write (since w (snd i)) = true /\
  machine (snd v) = machine w /\ machine (snd i) = machine w.
Proof.
  intros Hnpm. unfold Verify, Initialize. unfold_calls.
  rewrite Hnpm; simpl. rewrite !since_app.
  repeat split.
Qed.

(** C1 (as amended): when [npm] is found and the manifest path resolves but no
    package.json is there, Verify returns a RemediationError whose remediation
    is the command [npm init]; the run ends at that check: the calls are the
    path lookup, the path resolution and the existence test, no subprocess
    was started (neither the dependency probe nor [npm bin]) and the machine
    is as it was. *)
Theorem manifest_absent (a : AssemblyScript) (w : World S) (p fpath : string) :
  exec_LookPath H "npm" (machine w) = Ok p ->
  filepath_Abs H "package.json" (machine w) = Ok fpath ->
  common_FileExists H fpath (machine w) = false ->
  let v := Verify L H a w in
  fst v = Some (RemediationError (Errorf "package.json not found")
                  ("To fix this error, run the following command:"
                     ++ LF ++ LF ++ TAB ++ "$ " ++ text_Bold L "npm init")) /\
  since w (snd v) =
    [CallLookPath "npm"; CallAbs "package.json"; CallFileExists fpath] /\
  no_subprocess (since w (snd v)) = true /\
  (forall name args, ~ In (CallStart name args) (since w (snd v))) /\
  (forall name args, ~ In (CallOutput name args) (since w (snd v))) /\
  machine (snd v) = machine w.
Proof.
  intros Hnpm Habs Hfile. unfold Verify. unfold_calls.
  rewrite Hnpm; simpl. rewrite Habs; simpl. rewrite Hfile; simpl.
  rewrite <- !app_assoc; simpl. rewrite since_app.
  repeat split; intros name args [Hc|[Hc|[Hc|[]]]]; discriminate.
Qed.

(** C4 (as amended): when [npm] is found, the manifest is there, the
    compiler is declared and the compiler binary is in the resolved bin
    directory, Verify returns no error and writes exactly five progress
    lines, in the order of the checks: the npm check is announced, npm is
    found, the manifest is found, the compiler check is announced, the
    compiler is found. *)
Theorem ready_five_lines (a : AssemblyScript) (w : World S) (p fpath : string)
    (s1 s2 : S) (raw : string) (s3 : S) (path : string) :
  ready_to_build L H w p fpath s1 s2 raw s3 path ->
  let v := Verify L H a w in
  fst v = None /\
  written w (snd v) =
    [ "Checking if npm is installed..." ++ LF;
      "Found npm at " ++ p ++ LF;
      "Found package.json at " ++ fpath ++ LF;
      "Checking if AssemblyScript is installed..." ++ LF;
      "Found asc at " ++ path ++ LF ] /\
  length (written w (snd v)) = 5.
Proof.
  intros (Hnpm & Habs & Hfile & Hstart & Hwait & Hbin & Hasc & Hthere).
  unfold Verify. unfold_calls.
  rewrite Hnpm; simpl. rewrite Habs; simpl. rewrite Hfile; simpl.
  rewrite Hstart; simpl. rewrite Hwait; simpl. rewrite Hbin; simpl.
  rewrite Hasc; simpl. rewrite Hthere; simpl.
  rewrite <- !app_assoc; simpl. rewrite written_app.
  repeat split.
Qed.

(** The bin directory cannot be resolved: the remediation is to reinstall
    the package manager. *)
Lemma bin_unresolved (a : AssemblyScript) (w : World S) (p fpath : string)
    (s1 s2 : S) (e : error) (s3 : S) :
  exec_LookPath H "npm" (machine w) = Ok p ->
  filepath_Abs H "package.json" (machine w) = Ok fpath ->
  common_FileExists H fpath (machine w) = true ->
  exec_Start H "npm" ["link"; "--json"; "--depth"; "0"; "assemblyscript"]
             (machine w) = (None, s1) ->
  exec_Wait H "npm" ["link"; "--json"; "--depth"; "0"; "assemblyscript"] s1
    = (None, s2) ->
  exec_Output H "npm" ["bin"] s2 = (Err e, s3) ->
  fst (Verify L H a w) =
    Some (RemediationError (Errorf "could not determine npm bin path")
            ("To fix this error, run the following command:"
               ++ LF ++ LF ++ TAB ++ "$ "
               ++ text_Bold L "npm install --global npm@latest")).
Proof.
  intros Hnpm Habs Hfile Hstart Hwait Hbin.
  unfold Verify. unfold_calls.
  rewrite Hnpm; simpl. rewrite Habs; simpl. rewrite Hfile; simpl.
  rewrite Hstart; simpl. rewrite Hwait; simpl. rewrite Hbin; simpl.
  reflexivity.
Qed.

(** The bin directory resolves but looking the compiler up in it fails: the
    error of the lookup is wrapped and returned as it is. *)
Lemma asc_lookup_fails (a : AssemblyScript) (w : World S) (p fpath : string)
    (s1 s2 : S) (raw : string) (s3 : S) (e : error) :
  exec_LookPath H "npm" (machine w) = Ok p ->
  filepath_Abs H "package.json" (machine w) = Ok fpath ->
  common_FileExists H fpath (machine w) = true ->
  exec_Start H "npm" ["link"; "--json"; "--depth"; "0"; "assemblyscript"]
             (machine w) = (None, s1) ->
  exec_Wait H "npm" ["link"; "--json"; "--depth"; "0"; "assemblyscript"] s1
    = (None, s2) ->
  exec_Output H "npm" ["bin"] s2 = (Ok raw, s3) ->
  exec_LookPath H (filepath_Join L (strings_TrimSpace L raw) "asc") s3 = Err e ->
  fst (Verify L H a w) = Some (Wrapf "getting asc path" e).
Proof.
  intros Hnpm Habs Hfile Hstart Hwait Hbin Hasc.
  unfold Verify. unfold_calls.
  rewrite Hnpm; simpl. rewrite Habs; simpl. rewrite Hfile; simpl.
  rewrite Hstart; simpl. rewrite Hwait; simpl. rewrite Hbin; simpl.
  rewrite Hasc; simpl. reflexivity.
Qed.

(** The first two checks only read: the machine is as it was and the calls
    they add are no writes. *)
Lemma manifest_checks_read_only (w : World S) :
  let c := manifest_checks L H w in
  machine (snd c) = machine w /\
  exists cs, calls (snd c) = (calls w ++ cs)%list /\ no_write cs = true.
Proof.
  unfold manifest_checks. unfold_calls.
  destruct (exec_LookPath H "npm" (machine w)) as [p|e]; simpl.
  - destruct (filepath_Abs H "package.json" (machine w)) as [fpath|e]; simpl.
    + destruct (common_FileExists H fpath (machine w)); simpl;
        rewrite <- !app_assoc; simpl; split; try reflexivity;
        eexists; split; reflexivity.
    + rewrite <- !app_assoc; simpl; split; try reflexivity.
      eexists; split; reflexivity.
  - split; try reflexivity. eexists; split; reflexivity.
Qed.

Lemma and_then_run (m k : M S (option error)) (w : World S) :
  and_then m k w =
    match fst (m w) with
    | Some err => (Some err, snd (m w))
    | None => k (snd (m w))
    end.
Proof.
  unfold and_then, bind, ret. destruct (m w) as [[e|] w']; reflexivity.
Qed.

Lemma Verify_factors (a : AssemblyScript) (w : World S) :
  Verify L H a w = and_then (manifest_checks L H) (compiler_checks L H) w.
Proof.
  unfold Verify, and_then, manifest_checks, compiler_checks. unfold_calls.
  destruct (exec_LookPath H "npm" (machine w)) as [p|e]; simpl; [|reflexivity].
  destruct (filepath_Abs H "package.json" (machine w)) as [fpath|e]; simpl;
    [|reflexivity].
  destruct (common_FileExists H fpath (machine w)); simpl; reflexivity.
Qed.

Lemma Initialize_factors (a : AssemblyScript) (w : World S) :
  Initialize L H a w =
    and_then (manifest_checks L H) (Exec H "npm" ["install"] [] false) w.
Proof.
  unfold Initialize, and_then, manifest_checks. unfold_calls.
  destruct (exec_LookPath H "npm" (machine w)) as [p|e]; simpl; [|reflexivity].
  destruct (filepath_Abs H "package.json" (machine w)) as [fpath|e]; simpl;
    [|reflexivity].
  destruct (common_FileExists H fpath (machine w)); simpl; [|reflexivity].
  destruct (common_Exec H "npm" ["install"] [] false (machine w))
    as [[[e|] o] s']; reflexivity.
Qed.

(** C9: the first two checks of Initialize are those of Verify.  Both
    methods are [manifest_checks] followed by a rest that runs only when the
    checks report no error, from the world the checks left: so on every world
    the two pass or fail together, with the same error value, the same lines
    written and the same calls.  The rest of Initialize is the one call
    [npm install], with no environment additions and not verbose; the checks
    themselves only read, and leave the machine as it was. *)
Theorem same_first_checks (a : AssemblyScript) (w : World S) :
  let c := manifest_checks L H w in
  let v := Verify L H a w in
  let i := Initialize L H a w in
  v = and_then (manifest_checks L H) (compiler_checks L H) w /\
  i = and_then (manifest_checks L H) (Exec H "npm" ["install"] [] false) w /\
  machine (snd c) = machine w /\
  no_write (since w (snd c)) = true /\
  (forall err, fst c = Some err -> v = (Some err, snd c) /\ i = (Some err, snd c)) /\
  (fst c = None ->
     v = compiler_checks L H (snd c) /\
     i = Exec H "npm" ["install"] [] false (snd c) /\
     since (snd c) (snd i) = [CallExec "npm" ["install"] [] false] /\
     since w (snd i) = (since w (snd c) ++ [CallExec "npm" ["install"] [] false])%list).
Proof.
  cbv zeta.
  rewrite Verify_factors, Initialize_factors.
  destruct (manifest_checks_read_only w) as (Hm & cs & Hcs & Hro).
  rewrite !and_then_run.
  destruct (manifest_checks L H w) as [e wc]; simpl in *.
  assert (Hs : since w wc = cs).
  { unfold since. rewrite Hcs. apply skipn_length_app. }
  rewrite Hs.
  repeat split; try assumption; intros; subst e; try reflexivity.
  - unfold Exec.
    destruct (common_Exec H "npm" ["install"] [] false (machine wc))
      as [[e' o] s']; simpl. apply since_app.
  - unfold Exec.
    destruct (common_Exec H "npm" ["install"] [] false (machine wc))
      as [[e' o] s']; simpl.
    unfold since; simpl. rewrite Hcs, <- app_assoc. apply skipn_length_app.
Qed.

(** ** Build *)

(** The argument list Build hands to the compiler. *)
Lemma Build_run (a : AssemblyScript) (verbose : bool) (w : World S) (pwd : string) :
  os_Getwd H (machine w) = Ok pwd ->
  let binDir := filepath_Join L pwd "bin" in
  let args := ([ "src/index.ts"; "--binaryFile"; filepath_Join L binDir "main.wasm";
                 "--optimize"; "--noAssert" ]
                 ++ (if verbose then ["--verbose"] else []))%list in
  Build L H a verbose w =
    match MakeDirectoryIfNotExists H binDir (note CallGetwd w) with
    | (Some err, w1) => (Some (Wrapf "error making bin directory" err), w1)
    | (None, w1) =>
        match exec_Output H "npm" ["bin"] (machine w1) with
        | (Err err, s2) =>
            (Some (Wrapf "error getting npm bin path" err),
             mkWorld s2 (calls w1 ++ [CallOutput "npm" ["bin"]]) (out w1))
        | (Ok raw, s2) =>
            let command := filepath_Join L (strings_TrimSpace L raw) "asc" in
            let '(e, o, s3) := common_Exec H command args [] verbose s2 in
            (e, mkWorld s3 (calls w1 ++ [CallOutput "npm" ["bin"];
                                         CallExec command args [] verbose])
                        (out w1 ++ o))
        end
    end.
Proof.
  intros Hwd. cbv zeta. unfold Build.
  unfold bind at 1. unfold Getwd at 1. rewrite Hwd.
  unfold bind at 1.
  destruct (MakeDirectoryIfNotExists H _ (note CallGetwd w)) as [[err|] w1];
    [reflexivity|].
  unfold getNpmBinPath, bind, Output, ret, Exec.
  destruct (exec_Output H "npm" ["bin"] (machine w1)) as [[raw|err] s2];
    [|reflexivity].
  simpl.
  destruct verbose; simpl;
    match goal with
    | |- context [common_Exec H ?c ?x ?y ?v s2] =>
        destruct (common_Exec H c x y v s2) as [[[e|] o] s3]
    end; simpl; rewrite <- ?app_assoc; reflexivity.
Qed.

(** C5: whatever [verbose] is, once the working directory is known, the
    output directory is ensured and [npm bin] has answered, Build runs the
    compiler of that bin directory on a list of fixed shape: the entry point
    [src/index.ts], [--binaryFile] with [<pwd>/bin/main.wasm], [--optimize],
    [--noAssert], and then [--verbose] when [verbose] is set and nothing
    when it is not.  The list depends on the working directory and on
    [verbose] only; the verbosity flag occurs once in it when [verbose] is
    set, after the fixed part, and not at all otherwise. *)
Theorem build_arguments (a : AssemblyScript) (verbose : bool) (w w1 : World S)
    (pwd raw : string) (s2 : S) :
  os_Getwd H (machine w) = Ok pwd ->
  MakeDirectoryIfNotExists H (filepath_Join L pwd "bin") (note CallGetwd w)
    = (None, w1) ->
  exec_Output H "npm" ["bin"] (machine w1) = (Ok raw, s2) ->
  filepath_Join L (filepath_Join L pwd "bin") "main.wasm" <> "--verbose" ->
  let fixed := [ "src/index.ts"; "--binaryFile";
                 filepath_Join L (filepath_Join L pwd "bin") "main.wasm";
                 "--optimize"; "--noAssert" ] in
  let args := (fixed ++ (if verbose then ["--verbose"] else []))%list in
  let b := Build L H a verbose w in
  since w1 (snd b) =
    [ CallOutput "npm" ["bin"];
      CallExec (filepath_Join L (strings_TrimSpace L raw) "asc") args [] verbose ] /\
  occurrences "--verbose" fixed = 0 /\
  occurrences "--verbose" args = (if verbose then 1 else 0).
Proof.
  intros Hwd Hdir Hbin Hpath. cbv zeta.
  rewrite (Build_run a verbose w pwd Hwd). cbv zeta.
  rewrite Hdir, Hbin.
  apply String.eqb_neq in Hpath. rewrite String.eqb_sym in Hpath.
  split; [|split].
  - destruct (common_Exec H _ _ [] verbose s2) as [[e o] s3]; simpl.
    apply since_app.
  - unfold occurrences. cbn [filter]. rewrite Hpath. reflexivity.
  - unfold occurrences.
    destruct verbose; cbn [filter app]; rewrite Hpath; reflexivity.
Qed.

(** C7: in Build, a failure to make the output directory and a failure of
    [npm bin] both come back as wrapped plain errors: the value returned is
    [fmt.Errorf] context around the underlying error, it is not a
    RemediationError, and unwrapping it finds a remediation only if the
    underlying error already was one. *)
Theorem build_internal_errors (a : AssemblyScript) (verbose : bool) (w : World S)
    (pwd : string) :
  os_Getwd H (machine w) = Ok pwd ->
  let made :=
    MakeDirectoryIfNotExists H (filepath_Join L pwd "bin") (note CallGetwd w) in
  let b := Build L H a verbose w in
  (forall err, fst made = Some err ->
     exists failure,
       fst b = Some failure /\
       failure = Wrapf "error making bin directory" err /\
       is_remediation failure = false /\
       as_remediation failure = as_remediation err /\
       snd b = snd made) /\
  (forall err s2,
     fst made = None ->
     exec_Output H "npm" ["bin"] (machine (snd made)) = (Err err, s2) ->
     exists failure,
       fst b = Some failure /\
       failure = Wrapf "error getting npm bin path" err /\
       is_remediation failure = false /\
       as_remediation failure = as_remediation err /\
       since (snd made) (snd b) = [CallOutput "npm" ["bin"]]).
Proof.
  intros Hwd. cbv zeta.
  rewrite (Build_run a verbose w pwd Hwd). cbv zeta.
  destruct (MakeDirectoryIfNotExists H _ (note CallGetwd w)) as [[e|] w1];
    simpl; split.
  - intros err [= <-]. eexists; repeat split.
  - intros err s2 [=].
  - intros err [=].
  - intros err s2 _ Hbin. rewrite Hbin.
    eexists; repeat split. apply since_app.
Qed.









End Properties.

(** * The toolchain on the fixture *)

Import Fixture.

(** C3: a project whose manifest declares the compiler but whose bin
    directory holds no [asc].  [npm bin] resolves the directory and the
    compiler is not in it, yet what Verify returns is the wrapped error of the
    path lookup, which is not a RemediationError and carries none: the
    remediation to install the compiler is not reached. *)
Theorem asc_absent_plain_error :
  let v := Verify lib host mkAssemblyScript (boot no_asc) in
  exec_Output host "npm" ["bin"] no_asc = (Ok ("/proj/node_modules/.bin" ++ LF), no_asc) /\
  common_FileExists host "/proj/node_modules/.bin/asc" no_asc = false /\
  fst v = Some (Wrapf "getting asc path"
                  (SysError "stat /proj/node_modules/.bin/asc: no such file or directory")) /\
  (forall err, fst v = Some err ->
     is_remediation err = false /\ as_remediation err = None) /\
  since (boot no_asc) (snd v) =
    [ CallLookPath "npm"; CallAbs "package.json";
      CallFileExists "/proj/package.json";
      CallStart "npm" ["link"; "--json"; "--depth"; "0"; "assemblyscript"];
      CallWait "npm" ["link"; "--json"; "--depth"; "0"; "assemblyscript"];
      CallOutput "npm" ["bin"];
      CallLookPath "/proj/node_modules/.bin/asc" ].
Proof.
  cbv zeta. split; [|split; [|split; [|split]]]; try reflexivity.
  intros err Herr. vm_compute in Herr. injection Herr as <-.
  split; reflexivity.
Qed.

(** C4 (as stated) fails: on a project that is ready to build Verify
    returns no error and writes five lines, not four. *)
Lemma ready_not_four_lines :
  let v := Verify lib host mkAssemblyScript (boot ready) in
  ready_to_build lib host (boot ready) "/usr/bin/npm" "/proj/package.json"
    ready ready ("/proj/node_modules/.bin" ++ LF) ready
    "/proj/node_modules/.bin/asc" /\
  fst v = None /\
  length (written (boot ready) (snd v)) = 5 /\
  length (written (boot ready) (snd v)) <> 4.
Proof.
  cbv zeta. unfold ready_to_build.
  repeat split; try reflexivity. vm_compute. discriminate.
Qed.


(** C1 (as stated) fails: [npm] is found and there is no manifest, but the
    path of the manifest cannot be resolved; Verify returns the wrapped error
    of the path resolution, which is no RemediationError and does not carry
    the [npm init] remediation. *)
Lemma manifest_absent_path_unresolved :
  let v := Verify lib host mkAssemblyScript (boot Oddities.adrift) in
  exec_LookPath host "npm" Oddities.adrift = Ok "/usr/bin/npm" /\
  m_files Oddities.adrift = ["/usr/bin/npm"] /\
  common_FileExists host "package.json" Oddities.adrift = false /\
  fst v = Some (Wrapf "getting package.json path"
                  (SysError "getwd: no such file or directory")) /\
  ~ (exists inner text, fst v = Some (RemediationError inner text)).
Proof.
  cbv zeta. repeat split.
  intros (inner & text & Hv). vm_compute in Hv. discriminate Hv.
Qed.

(** A project without a manifest: Verify asks for [npm init]. *)
Lemma manifest_absent_witness :
  fst (Verify lib host mkAssemblyScript (boot no_manifest)) =
    Some (RemediationError (Errorf "package.json not found")
            ("To fix this error, run the following command:"
               ++ LF ++ LF ++ TAB ++ "$ npm init")) /\
  no_subprocess (since (boot no_manifest)
                   (snd (Verify lib host mkAssemblyScript (boot no_manifest)))) = true.
Proof.
  pose proof (manifest_absent lib host mkAssemblyScript (boot no_manifest)
                "/usr/bin/npm" "/proj/package.json" eq_refl eq_refl eq_refl)
    as (Hr & _ & Hs & _).
  split; [exact Hr | exact Hs].
Defined.

(** A machine without Node.js: both methods point at the download site. *)
Lemma npm_missing_witness :
  fst (Verify lib host mkAssemblyScript (boot no_npm)) =
    fst (Initialize lib host mkAssemblyScript (boot no_npm)) /\
  machine (snd (Initialize lib host mkAssemblyScript (boot no_npm))) = no_npm.
Proof.
  pose proof (npm_missing lib host mkAssemblyScript (boot no_npm)
                (SysError "executable file not found in $PATH") eq_refl)
    as (Hv & Hi & _ & _ & _ & _ & _ & _ & Hm).
  split; [rewrite Hv, Hi; reflexivity | exact Hm].
Defined.

(** A project that is ready: five lines. *)
Lemma ready_five_lines_witness :
  length (written (boot ready)
            (snd (Verify lib host mkAssemblyScript (boot ready)))) = 5.
Proof.
  refine (proj2 (proj2 (ready_five_lines lib host mkAssemblyScript (boot ready)
                          "/usr/bin/npm" "/proj/package.json" ready ready
                          ("/proj/node_modules/.bin" ++ LF) ready
                          "/proj/node_modules/.bin/asc" _))).
  unfold ready_to_build. repeat split; reflexivity.
Defined.

(** A verbose build of the ready project: the compiler call it makes. *)
Lemma build_arguments_witness :
  since (mkWorld (with_dir "/proj/bin" ready)
           [CallGetwd; CallIsDir "/proj/bin"; CallMkdirAll "/proj/bin" true] [])
        (snd (Build lib host mkAssemblyScript true (boot ready))) =
    [ CallOutput "npm" ["bin"];
      CallExec "/proj/node_modules/.bin/asc"
        [ "src/index.ts"; "--binaryFile"; "/proj/bin/main.wasm";
          "--optimize"; "--noAssert"; "--verbose" ] [] true ].
Proof.
  refine (proj1 (build_arguments lib host mkAssemblyScript true (boot ready)
                   (mkWorld (with_dir "/proj/bin" ready)
                      [CallGetwd; CallIsDir "/proj/bin";
                       CallMkdirAll "/proj/bin" true] [])
                   "/proj" ("/proj/node_modules/.bin" ++ LF)
                   (with_dir "/proj/bin" ready) eq_refl eq_refl eq_refl _)).
  simpl. discriminate.
Defined.

(** A directory that cannot be written and an [npm bin] that fails: both
    come back wrapped. *)
Lemma build_internal_errors_witness :
  (exists failure,
     fst (Build lib host mkAssemblyScript false (boot readonly)) = Some failure /\
     failure = Wrapf "error making bin directory"
                 (SysError "mkdir /proj/bin: permission denied") /\
     is_remediation failure = false) /\
  (exists failure,
     fst (Build lib host mkAssemblyScript false (boot no_bin)) = Some failure /\
     failure = Wrapf "error getting npm bin path" (SysError "exit status 1") /\
     is_remediation failure = false).
Proof.
  split.
  - destruct (proj1 (build_internal_errors lib host mkAssemblyScript false
                       (boot readonly) "/proj" eq_refl)
                _ eq_refl) as (failure & Hr & Hf & Hn & _).
    exists failure. repeat split; assumption.
  - destruct (proj2 (build_internal_errors lib host mkAssemblyScript false
                       (boot no_bin) "/proj" eq_refl)
                _ _ eq_refl eq_refl) as (failure & Hr & Hf & Hn & _).
    exists failure. repeat split; assumption.
Defined.


(** * Further properties of the three operations *)

Section More.

Context {S : Type}.
Variable L : Lib.
Variable H : Host S.

(** ** Verify *)

(** X1: on every host Verify's calls are an initial part of one fixed
    sequence: look [npm] up, resolve the manifest path, test the manifest,
    start the probe, wait for it, ask [npm bin], look the compiler up, test
    it.  At least the first call is made, a run without error makes all
    eight, and no run creates a directory or runs a streaming command. *)
Theorem Verify_fail_fast (a : AssemblyScript) (w : World S) :
  let v := Verify L H a w in
  exists fpath bin path n,
    1 <= n <= 8 /\
    since w (snd v) = firstn n (verify_journal L fpath bin path) /\
    (fst v = None -> n = 8) /\
    (n <= 3 -> machine (snd v) = machine w) /\
    (forall p c, ~ In (CallMkdirAll p c) (since w (snd v))) /\
    (forall command args env vb,
       ~ In (CallExec command args env vb) (since w (snd v))).
Proof.
  cbv zeta. unfold Verify. unfold_calls.
  destruct (exec_LookPath H "npm" (machine w)) as [p|e]; simpl.
  2:{ exists "", "", "", 1. rewrite since_app. simpl.
      repeat split; try lia; try discriminate;
        intros; intros Hin; in_journal Hin. }
  destruct (filepath_Abs H "package.json" (machine w)) as [fpath|e]; simpl.
  2:{ exists "", "", "", 2. rewrite <- !app_assoc. rewrite since_app. simpl.
      repeat split; try lia; try discriminate;
        intros; intros Hin; in_journal Hin. }
  destruct (common_FileExists H fpath (machine w)); simpl.
  2:{ exists fpath, "", "", 3. rewrite <- !app_assoc. rewrite since_app. simpl.
      repeat split; try lia; try discriminate;
        intros; intros Hin; in_journal Hin. }
  destruct (exec_Start H "npm" _ (machine w)) as [[e|] s1]; simpl.
  { exists fpath, "", "", 4. rewrite <- !app_assoc. rewrite since_app. simpl.
    repeat split; try lia; try discriminate;
      intros; intros Hin; in_journal Hin. }
  destruct (exec_Wait H "npm" _ s1) as [[e|] s2]; simpl.
  { exists fpath, "", "", 5. rewrite <- !app_assoc. rewrite since_app. simpl.
    repeat split; try lia; try discriminate;
      intros; intros Hin; in_journal Hin. }
  destruct (exec_Output H "npm" ["bin"] s2) as [[raw|e] s3]; simpl.
  2:{ exists fpath, "", "", 6. rewrite <- !app_assoc. rewrite since_app. simpl.
      repeat split; try lia; try discriminate;
        intros; intros Hin; in_journal Hin. }
  destruct (exec_LookPath H _ s3) as [path|e]; simpl.
  2:{ exists fpath, (strings_TrimSpace L raw), "", 7.
      rewrite <- !app_assoc. rewrite since_app. simpl.
      repeat split; try lia; try discriminate;
        intros; intros Hin; in_journal Hin. }
  exists fpath, (strings_TrimSpace L raw), path, 8.
  destruct (common_FileExists H path s3); simpl;
    rewrite <- !app_assoc; rewrite since_app; simpl;
    repeat split; try lia; try discriminate;
      intros; intros Hin; in_journal Hin.
Qed.

(** X2: Verify returns no error exactly when everything it looks at is in
    place: [npm] is on the path, the manifest path resolves and the file is
    there, the probe starts and exits cleanly, [npm bin] answers, and the
    compiler is found in that directory and is there. *)
Theorem Verify_succeeds_iff_ready (a : AssemblyScript) (w : World S) :
  fst (Verify L H a w) = None <->
  exists p fpath s1 s2 raw s3 path,
    ready_to_build L H w p fpath s1 s2 raw s3 path.
Proof.
  unfold ready_to_build. split.
  - unfold Verify. unfold_calls.
    destruct (exec_LookPath H "npm" (machine w)) as [p|e] eqn:Hnpm; simpl;
      [|discriminate].
    destruct (filepath_Abs H "package.json" (machine w)) as [fpath|e] eqn:Habs;
      simpl; [|discriminate].
    destruct (common_FileExists H fpath (machine w)) eqn:Hfile; simpl;
      [|discriminate].
    destruct (exec_Start H "npm" _ (machine w)) as [[e|] s1] eqn:Hstart; simpl;
      [discriminate|].
    destruct (exec_Wait H "npm" _ s1) as [[e|] s2] eqn:Hwait; simpl;
      [discriminate|].
    destruct (exec_Output H "npm" ["bin"] s2) as [[raw|e] s3] eqn:Hbin; simpl;
      [|discriminate].
    destruct (exec_LookPath H _ s3) as [path|e] eqn:Hasc; simpl; [|discriminate].
    destruct (common_FileExists H path s3) eqn:Hthere; simpl; [|discriminate].
    intros _. exists p, fpath, s1, s2, raw, s3, path.
    repeat split; assumption.
  - intros (p & fpath & s1 & s2 & raw & s3 & path &
            Hnpm & Habs & Hfile & Hstart & Hwait & Hbin & Hasc & Hthere).
    unfold Verify. unfold_calls.
    rewrite Hnpm; simpl. rewrite Habs; simpl. rewrite Hfile; simpl.
    rewrite Hstart; simpl. rewrite Hwait; simpl. rewrite Hbin; simpl.
    rewrite Hasc; simpl. rewrite Hthere; simpl. reflexivity.
Qed.

(** X3: every error Verify returns has one of six shapes: a
    RemediationError whose remediation is the visit to nodejs.org, [npm init],
    [npm install --save-dev assemblyscript] or
    [npm install --global npm@latest], or a plain wrapped error with the
    context "getting package.json path" or "getting asc path". *)
Theorem Verify_error_shapes (a : AssemblyScript) (w : World S) (err : error) :
  fst (Verify L H a w) = Some err ->
  (exists inner text,
     err = RemediationError inner text /\
     In text [ visit L "https://nodejs.org/";
               run_command L "npm init";
               run_command L "npm install --save-dev assemblyscript";
               run_command L "npm install --global npm@latest" ]) \/
  (exists e, err = Wrapf "getting package.json path" e) \/
  (exists e, err = Wrapf "getting asc path" e).
Proof.
  unfold Verify. unfold_calls.
  destruct (exec_LookPath H "npm" (machine w)) as [p|e]; simpl.
  2:{ intros [= <-]. left. eexists _, _. split; [reflexivity|]. simpl; tauto. }
  destruct (filepath_Abs H "package.json" (machine w)) as [fpath|e]; simpl.
  2:{ intros [= <-]. right; left. eexists; reflexivity. }
  destruct (common_FileExists H fpath (machine w)); simpl.
  2:{ intros [= <-]. left. eexists _, _. split; [reflexivity|]. simpl; tauto. }
  destruct (exec_Start H "npm" _ (machine w)) as [[e|] s1]; simpl.
  { intros [= <-]. left. eexists _, _. split; [reflexivity|]. simpl; tauto. }
  destruct (exec_Wait H "npm" _ s1) as [[e|] s2]; simpl.
  { intros [= <-]. left. eexists _, _. split; [reflexivity|]. simpl; tauto. }
  destruct (exec_Output H "npm" ["bin"] s2) as [[raw|e] s3]; simpl.
  2:{ intros [= <-]. left. eexists _, _. split; [reflexivity|]. simpl; tauto. }
  destruct (exec_LookPath H _ s3) as [path|e]; simpl.
  2:{ intros [= <-]. right; right. eexists; reflexivity. }
  destruct (common_FileExists H path s3); simpl; [discriminate|].
  intros [= <-]. left. eexists _, _. split; [reflexivity|]. simpl; tauto.
Qed.

(** X4: when the manifest path cannot be made absolute, Verify and
    Initialize both return the error of [filepath.Abs] wrapped with the
    context "getting package.json path", which is no RemediationError; the
    existence test is not made, nothing but the first two calls reached the
    machine, and [npm install] was not run. *)
Theorem manifest_path_unresolved (a : AssemblyScript) (w : World S)
    (p : string) (e : error) :
  exec_LookPath H "npm" (machine w) = Ok p ->
  filepath_Abs H "package.json" (machine w) = Err e ->
  let v := Verify L H a w in
  let i := Initialize L H a w in
  v = i /\
  fst v = Some (Wrapf "getting package.json path" e) /\
  since w (snd v) = [CallLookPath "npm"; CallAbs "package.json"] /\
  written w (snd v) =
    ["Checking if npm is installed..." ++ LF; "Found npm at " ++ p ++ LF] /\
  machine (snd v) = machine w.
Proof.
  intros Hnpm Habs. unfold Verify, Initialize. unfold_calls.
  rewrite Hnpm; simpl. rewrite Habs; simpl.
  rewrite <- !app_assoc; simpl. rewrite since_app, written_app.
  repeat split.
Qed.

(** X5: when the first two checks pass and the probe cannot be started, or
    starts and exits with an error, Verify returns the RemediationError
    "`assemblyscript` not found in package.json" with the remediation
    [npm install --save-dev assemblyscript], and [npm bin] is not asked. *)
Theorem dependency_undeclared (a : AssemblyScript) (w : World S)
    (p fpath : string) :
  exec_LookPath H "npm" (machine w) = Ok p ->
  filepath_Abs H "package.json" (machine w) = Ok fpath ->
  common_FileExists H fpath (machine w) = true ->
  fst (checkPackageDependencyExists H "assemblyscript" w) = false ->
  let v := Verify L H a w in
  fst v = Some (RemediationError
                  (Errorf "`assemblyscript` not found in package.json")
                  ("To fix this error, run the following command:"
                     ++ LF ++ LF ++ TAB ++ "$ "
                     ++ text_Bold L "npm install --save-dev assemblyscript")) /\
  (forall name args, ~ In (CallOutput name args) (since w (snd v))) /\
  (forall file, In (CallLookPath file) (since w (snd v)) -> file = "npm").
Proof.
  intros Hnpm Habs Hfile. unfold Verify. unfold_calls.
  rewrite Hnpm; simpl. rewrite Habs; simpl. rewrite Hfile; simpl.
  destruct (exec_Start H "npm" _ (machine w)) as [[e|] s1]; simpl.
  - intros _. rewrite <- !app_assoc; simpl. rewrite since_app.
    repeat split.
    + intros name args Hin. in_journal Hin.
    + intros file Hin. in_journal Hin. congruence.
  - destruct (exec_Wait H "npm" _ s1) as [[e|] s2]; simpl; [|discriminate].
    intros _. rewrite <- !app_assoc; simpl. rewrite since_app.
    repeat split.
    + intros name args Hin. in_journal Hin.
    + intros file Hin. in_journal Hin. congruence.
Qed.

(** X6: when the compiler is declared and [npm bin] fails, Verify returns
    the RemediationError "could not determine npm bin path" with the
    remediation [npm install --global npm@latest]; the error of [npm bin]
    itself is not part of what is returned, and the compiler is not looked
    up. *)
Theorem npm_bin_unresolved (a : AssemblyScript) (w : World S) (p fpath : string)
    (s1 s2 : S) (e : error) (s3 : S) :
  declared H w p fpath s1 s2 ->
  exec_Output H "npm" ["bin"] s2 = (Err e, s3) ->
  let v := Verify L H a w in
  fst v = Some (RemediationError (Errorf "could not determine npm bin path")
                  ("To fix this error, run the following command:"
                     ++ LF ++ LF ++ TAB ++ "$ "
                     ++ text_Bold L "npm install --global npm@latest")) /\
  since w (snd v) = firstn 6 (verify_journal L fpath "" "") /\
  machine (snd v) = s3.
Proof.
  intros (Hnpm & Habs & Hfile & Hstart & Hwait) Hbin.
  unfold Verify. unfold_calls.
  rewrite Hnpm; simpl. rewrite Habs; simpl. rewrite Hfile; simpl.
  rewrite Hstart; simpl. rewrite Hwait; simpl. rewrite Hbin; simpl.
  rewrite <- !app_assoc; simpl. rewrite since_app.
  repeat split.
Qed.

(** X7: when [npm bin] answers and the lookup of the compiler in that
    directory fails, Verify returns the lookup's error wrapped with the
    context "getting asc path".  The value is no RemediationError, the
    existence test of the compiler is not made and the line "Found asc" is
    not written. *)
Theorem asc_lookup_error (a : AssemblyScript) (w : World S) (p fpath : string)
    (s1 s2 : S) (raw : string) (s3 : S) (e : error) :
  declared H w p fpath s1 s2 ->
  exec_Output H "npm" ["bin"] s2 = (Ok raw, s3) ->
  exec_LookPath H (filepath_Join L (strings_TrimSpace L raw) "asc") s3 = Err e ->
  let v := Verify L H a w in
  fst v = Some (Wrapf "getting asc path" e) /\
  since w (snd v) = firstn 7 (verify_journal L fpath (strings_TrimSpace L raw) "") /\
  length (written w (snd v)) = 4.
Proof.
  intros (Hnpm & Habs & Hfile & Hstart & Hwait) Hbin Hasc.
  unfold Verify. unfold_calls.
  rewrite Hnpm; simpl. rewrite Habs; simpl. rewrite Hfile; simpl.
  rewrite Hstart; simpl. rewrite Hwait; simpl. rewrite Hbin; simpl.
  rewrite Hasc; simpl.
  rewrite <- !app_assoc; simpl. rewrite since_app, written_app.
  repeat split.
Qed.

(** X8: when the lookup of the compiler succeeds with [path] and the
    existence test of [path] says no, Verify returns the RemediationError
    "`asc` binary not found in <bin directory>", naming the trimmed answer of
    [npm bin], with the remediation
    [npm install --save-dev assemblyscript]. *)
Theorem asc_not_a_file (a : AssemblyScript) (w : World S) (p fpath : string)
    (s1 s2 : S) (raw : string) (s3 : S) (path : string) :
  declared H w p fpath s1 s2 ->
  exec_Output H "npm" ["bin"] s2 = (Ok raw, s3) ->
  exec_LookPath H (filepath_Join L (strings_TrimSpace L raw) "asc") s3 = Ok path ->
  common_FileExists H path s3 = false ->
  let v := Verify L H a w in
  fst v = Some (RemediationError
                  (Errorf ("`asc` binary not found in " ++ strings_TrimSpace L raw))
                  ("To fix this error, run the following command:"
                     ++ LF ++ LF ++ TAB ++ "$ "
                     ++ text_Bold L "npm install --save-dev assemblyscript")) /\
  since w (snd v) = verify_journal L fpath (strings_TrimSpace L raw) path /\
  length (written w (snd v)) = 4.
Proof.
  intros (Hnpm & Habs & Hfile & Hstart & Hwait) Hbin Hasc Hthere.
  unfold Verify. unfold_calls.
  rewrite Hnpm; simpl. rewrite Habs; simpl. rewrite Hfile; simpl.
  rewrite Hstart; simpl. rewrite Hwait; simpl. rewrite Hbin; simpl.
  rewrite Hasc; simpl. rewrite Hthere; simpl.
  rewrite <- !app_assoc; simpl. rewrite since_app, written_app.
  repeat split.
Qed.

(** ** Initialize *)

(** X9: Initialize returns no error exactly when [npm] is on the path, the
    manifest path resolves, the manifest is there and [npm install] reports
    no error.  An error of [npm install] is returned as it is. *)
Theorem Initialize_succeeds_iff (a : AssemblyScript) (w : World S) :
  (fst (Initialize L H a w) = None <->
   exists p fpath,
     exec_LookPath H "npm" (machine w) = Ok p /\
     filepath_Abs H "package.json" (machine w) = Ok fpath /\
     common_FileExists H fpath (machine w) = true /\
     fst (fst (common_Exec H "npm" ["install"] [] false (machine w))) = None) /\
  (forall p fpath,
     exec_LookPath H "npm" (machine w) = Ok p ->
     filepath_Abs H "package.json" (machine w) = Ok fpath ->
     common_FileExists H fpath (machine w) = true ->
     fst (Initialize L H a w) =
       fst (fst (common_Exec H "npm" ["install"] [] false (machine w)))).
Proof.
  split.
  - split.
    + unfold Initialize. unfold_calls.
      destruct (exec_LookPath H "npm" (machine w)) as [p|e] eqn:Hnpm; simpl;
        [|discriminate].
      destruct (filepath_Abs H "package.json" (machine w)) as [fpath|e] eqn:Habs;
        simpl; [|discriminate].
      destruct (common_FileExists H fpath (machine w)) eqn:Hfile; simpl;
        [|discriminate].
      destruct (common_Exec H "npm" ["install"] [] false (machine w))
        as [[[e|] o] s'] eqn:Hrun; simpl; [discriminate|].
      intros _. exists p, fpath. repeat split; assumption.
    + intros (p & fpath & Hnpm & Habs & Hfile & Hrun).
      unfold Initialize. unfold_calls.
      rewrite Hnpm; simpl. rewrite Habs; simpl. rewrite Hfile; simpl.
      destruct (common_Exec H "npm" ["install"] [] false (machine w))
        as [[[e|] o] s']; simpl in *; [discriminate|reflexivity].
  - intros p fpath Hnpm Habs Hfile.
    unfold Initialize. unfold_calls.
    rewrite Hnpm; simpl. rewrite Habs; simpl. rewrite Hfile; simpl.
    destruct (common_Exec H "npm" ["install"] [] false (machine w))
      as [[[e|] o] s']; reflexivity.
Qed.

(** X10: what Initialize writes.  When the first two checks pass it writes
    its three lines and after them whatever [npm install] streamed; it starts
    no probe and asks no [npm bin]. *)
Theorem Initialize_output (a : AssemblyScript) (w : World S) (p fpath : string)
    (e : option error) (o : list string) (s' : S) :
  exec_LookPath H "npm" (machine w) = Ok p ->
  filepath_Abs H "package.json" (machine w) = Ok fpath ->
  common_FileExists H fpath (machine w) = true ->
  common_Exec H "npm" ["install"] [] false (machine w) = (e, o, s') ->
  let i := Initialize L H a w in
  fst i = e /\
  written w (snd i) =
    List.app [ "Checking if npm is installed..." ++ LF;
               "Found npm at " ++ p ++ LF;
               "Found package.json at " ++ fpath ++ LF ] o /\
  since w (snd i) =
    [ CallLookPath "npm"; CallAbs "package.json"; CallFileExists fpath;
      CallExec "npm" ["install"] [] false ] /\
  machine (snd i) = s'.
Proof.
  intros Hnpm Habs Hfile Hrun. unfold Initialize. unfold_calls.
  rewrite Hnpm; simpl. rewrite Habs; simpl. rewrite Hfile; simpl.
  rewrite Hrun; simpl.
  destruct e; simpl; rewrite <- !app_assoc; simpl;
    rewrite since_app, written_app; repeat split.
Qed.

(** ** Build *)

(** X11: when the working directory cannot be read, Build returns that
    error wrapped with the context "error getting current working directory";
    it has made no other call: no directory is tested or made, no subprocess
    is started, nothing is written and the machine is as it was. *)
Theorem Build_getwd_fails (a : AssemblyScript) (verbose : bool) (w : World S)
    (e : error) :
  os_Getwd H (machine w) = Err e ->
  let b := Build L H a verbose w in
  fst b = Some (Wrapf "error getting current working directory" e) /\
  since w (snd b) = [CallGetwd] /\
  no_write (since w (snd b)) = true /\
  out (snd b) = out w /\
  machine (snd b) = machine w.
Proof.
  intros Hwd. unfold Build. unfold_calls. rewrite Hwd; simpl.
  rewrite since_app. repeat split.
Qed.

(** X12: once the working directory is known, the output directory is
    ensured and [npm bin] has answered, Build is the compiler call: it
    returns what the call returns, an error unchanged and without added
    context, it writes what the compiler streamed and nothing of its own, and
    the machine is left as the compiler left it. *)
Theorem Build_returns_compiler_result (a : AssemblyScript) (verbose : bool)
    (w w1 : World S) (pwd raw : string) (s2 s3 : S)
    (e : option error) (o : list string) :
  os_Getwd H (machine w) = Ok pwd ->
  MakeDirectoryIfNotExists H (filepath_Join L pwd "bin") (note CallGetwd w)
    = (None, w1) ->
  exec_Output H "npm" ["bin"] (machine w1) = (Ok raw, s2) ->
  common_Exec H (filepath_Join L (strings_TrimSpace L raw) "asc")
              (compiler_args L pwd verbose) [] verbose s2 = (e, o, s3) ->
  let b := Build L H a verbose w in
  fst b = e /\
  written w1 (snd b) = o /\
  machine (snd b) = s3.
Proof.
  intros Hwd Hdir Hbin Hrun. cbv zeta.
  rewrite (Build_run L H a verbose w pwd Hwd). cbv zeta.
  rewrite Hdir, Hbin. unfold compiler_args in Hrun. rewrite Hrun. simpl.
  rewrite written_app. repeat split.
Qed.

(** X13: every error Build returns is the error of [os.Getwd], of the
    directory step or of [npm bin] of this run, under the context Build or
    getNpmBinPath puts around it, or else it is the very error returned by
    running the compiler of the bin directory that [npm bin] printed in this
    run, on Build's argument list, from the machine state [npm bin] left. *)
Theorem Build_error_shapes (a : AssemblyScript) (verbose : bool) (w : World S)
    (err : error) :
  fst (Build L H a verbose w) = Some err ->
  (exists e,
     os_Getwd H (machine w) = Err e /\
     err = Wrapf "error getting current working directory" e) \/
  (exists pwd e w1,
     os_Getwd H (machine w) = Ok pwd /\
     MakeDirectoryIfNotExists H (filepath_Join L pwd "bin") (note CallGetwd w)
       = (Some e, w1) /\
     err = Wrapf "error making bin directory" e) \/
  (exists pwd w1 e s2,
     os_Getwd H (machine w) = Ok pwd /\
     MakeDirectoryIfNotExists H (filepath_Join L pwd "bin") (note CallGetwd w)
       = (None, w1) /\
     exec_Output H "npm" ["bin"] (machine w1) = (Err e, s2) /\
     err = Wrapf "error getting npm bin path" e) \/
  (exists pwd w1 raw s2 o s3,
     os_Getwd H (machine w) = Ok pwd /\
     MakeDirectoryIfNotExists H (filepath_Join L pwd "bin") (note CallGetwd w)
       = (None, w1) /\
     exec_Output H "npm" ["bin"] (machine w1) = (Ok raw, s2) /\
     common_Exec H (filepath_Join L (strings_TrimSpace L raw) "asc")
                 (compiler_args L pwd verbose) [] verbose s2 = (Some err, o, s3)).
Proof.
  destruct (os_Getwd H (machine w)) as [pwd|e] eqn:Hwd.
  - rewrite (Build_run L H a verbose w pwd Hwd). cbv zeta.
    destruct (MakeDirectoryIfNotExists H _ (note CallGetwd w))
      as [[e|] w1] eqn:Hmade.
    + intros [= <-]. right; left. exists pwd, e, w1.
      repeat split; assumption.
    + destruct (exec_Output H "npm" ["bin"] (machine w1))
        as [[raw|e] s2] eqn:Hbin.
      * destruct (common_Exec H (filepath_Join L (strings_TrimSpace L raw) "asc")
                    (compiler_args L pwd verbose) [] verbose s2)
          as [[e o] s3] eqn:Hrun.
        unfold compiler_args in Hrun. rewrite Hrun. simpl.
        intros ->. right; right; right.
        exists pwd, w1, raw, s2, o, s3. repeat split; assumption.
      * intros [= <-]. right; right; left.
        exists pwd, w1, e, s2. repeat split; assumption.
  - unfold Build. unfold_calls. rewrite Hwd; simpl.
    intros [= <-]. left. exists e. split; reflexivity.
Qed.

Lemma last_two {A : Type} (l : list A) (x y d : A) :
  last (l ++ [x; y]) d = y.
Proof.
  induction l as [|z l IH]; [reflexivity|].
  simpl. destruct (l ++ [x; y])%list eqn:E; [|exact IH].
  destruct l; discriminate.
Qed.

(** X14: Build returns no error only if the compiler was run: the
    working directory was read, the directory step reported no error,
    [npm bin] answered, and the last call of the run is the compiler of the
    bin directory that [npm bin] printed in this run, with the argument list
    of the working directory, no environment additions and the verbosity
    asked for; that call, made from the state [npm bin] left, reported no
    error and left the machine as Build leaves it. *)
Theorem Build_success_ran_compiler (a : AssemblyScript) (verbose : bool)
    (w : World S) :
  let b := Build L H a verbose w in
  fst b = None ->
  exists pwd w1 raw s2 o,
    os_Getwd H (machine w) = Ok pwd /\
    MakeDirectoryIfNotExists H (filepath_Join L pwd "bin") (note CallGetwd w)
      = (None, w1) /\
    exec_Output H "npm" ["bin"] (machine w1) = (Ok raw, s2) /\
    common_Exec H (filepath_Join L (strings_TrimSpace L raw) "asc")
                (compiler_args L pwd verbose) [] verbose s2
      = (None, o, machine (snd b)) /\
    since w1 (snd b) =
      [ CallOutput "npm" ["bin"];
        CallExec (filepath_Join L (strings_TrimSpace L raw) "asc")
                 (compiler_args L pwd verbose) [] verbose ] /\
    last (calls (snd b)) CallGetwd =
      CallExec (filepath_Join L (strings_TrimSpace L raw) "asc")
               (compiler_args L pwd verbose) [] verbose.
Proof.
  cbv zeta.
  destruct (os_Getwd H (machine w)) as [pwd|e] eqn:Hwd.
  - rewrite (Build_run L H a verbose w pwd Hwd). cbv zeta.
    destruct (MakeDirectoryIfNotExists H _ (note CallGetwd w))
      as [[e|] w1] eqn:Hmade; [discriminate|].
    destruct (exec_Output H "npm" ["bin"] (machine w1))
      as [[raw|e] s2] eqn:Hbin; [|discriminate].
    destruct (common_Exec H (filepath_Join L (strings_TrimSpace L raw) "asc")
                (compiler_args L pwd verbose) [] verbose s2)
      as [[e o] s3] eqn:Hrun.
    unfold compiler_args in Hrun. rewrite Hrun. simpl.
    intros ->. exists pwd, w1, raw, s2, o.
    split; [reflexivity|]. split; [exact Hmade|]. split; [exact Hbin|].
    split; [exact Hrun|]. split; [apply since_app | apply last_two].
  - unfold Build. unfold_calls. rewrite Hwd; simpl. discriminate.
Qed.

End More.

(** ** The further properties on the fixture *)

Lemma Verify_error_shapes_witness :
  exists inner text,
    fst (Verify lib host mkAssemblyScript (boot no_npm))
      = Some (RemediationError inner text).
Proof.
  destruct (Verify_error_shapes lib host mkAssemblyScript (boot no_npm) _ eq_refl)
    as [(inner & text & Herr & _)|[(e & Herr)|(e & Herr)]].
  - exists inner, text. rewrite <- Herr. reflexivity.
  - discriminate Herr.
  - discriminate Herr.
Defined.

Lemma manifest_path_unresolved_witness :
  fst (Initialize lib host mkAssemblyScript (boot Oddities.lost)) =
    Some (Wrapf "getting package.json path"
            (SysError "getwd: no such file or directory")).
Proof.
  destruct (manifest_path_unresolved lib host mkAssemblyScript
              (boot Oddities.lost) "/usr/bin/npm"
              (SysError "getwd: no such file or directory") eq_refl eq_refl)
    as (Hsame & Hr & _).
  rewrite <- Hsame. exact Hr.
Defined.

Lemma dependency_undeclared_witness :
  fst (Verify lib host mkAssemblyScript (boot Oddities.undeclared)) =
    Some (RemediationError
            (Errorf "`assemblyscript` not found in package.json")
            ("To fix this error, run the following command:"
               ++ LF ++ LF ++ TAB ++ "$ npm install --save-dev assemblyscript")).
Proof.
  exact (proj1 (dependency_undeclared lib host mkAssemblyScript
                  (boot Oddities.undeclared) "/usr/bin/npm"
                  "/proj/package.json" eq_refl eq_refl eq_refl eq_refl)).
Defined.

Lemma npm_bin_unresolved_witness :
  machine (snd (Verify lib host mkAssemblyScript (boot no_bin))) = no_bin.
Proof.
  refine (proj2 (proj2 (npm_bin_unresolved lib host mkAssemblyScript (boot no_bin)
                          "/usr/bin/npm" "/proj/package.json" no_bin no_bin
                          (SysError "exit status 1") no_bin _ eq_refl))).
  unfold declared. repeat split; reflexivity.
Defined.

Lemma asc_lookup_error_witness :
  length (written (boot no_asc)
            (snd (Verify lib host mkAssemblyScript (boot no_asc)))) = 4.
Proof.
  refine (proj2 (proj2 (asc_lookup_error lib host mkAssemblyScript (boot no_asc)
                          "/usr/bin/npm" "/proj/package.json" no_asc no_asc
                          ("/proj/node_modules/.bin" ++ LF) no_asc
                          (SysError "stat /proj/node_modules/.bin/asc: no such file or directory")
                          _ eq_refl eq_refl))).
  unfold declared. repeat split; reflexivity.
Defined.

Lemma asc_not_a_file_witness :
  fst (Verify lib Oddities.host mkAssemblyScript (boot no_asc)) =
    Some (RemediationError
            (Errorf "`asc` binary not found in /proj/node_modules/.bin")
            ("To fix this error, run the following command:"
               ++ LF ++ LF ++ TAB ++ "$ npm install --save-dev assemblyscript")).
Proof.
  refine (proj1 (asc_not_a_file lib Oddities.host mkAssemblyScript (boot no_asc)
                   "/usr/bin/npm" "/proj/package.json" no_asc no_asc
                   ("/proj/node_modules/.bin" ++ LF) no_asc
                   "/proj/node_modules/.bin/asc" _ eq_refl eq_refl eq_refl)).
  unfold declared. repeat split; reflexivity.
Defined.

Lemma Initialize_output_witness :
  since (boot ready) (snd (Initialize lib host mkAssemblyScript (boot ready))) =
    [ CallLookPath "npm"; CallAbs "package.json";
      CallFileExists "/proj/package.json"; CallExec "npm" ["install"] [] false ].
Proof.
  exact (proj1 (proj2 (proj2 (Initialize_output lib host mkAssemblyScript
                                (boot ready) "/usr/bin/npm" "/proj/package.json"
                                None [] ready eq_refl eq_refl eq_refl eq_refl)))).
Defined.

Lemma Build_getwd_fails_witness :
  since (boot Oddities.lost)
        (snd (Build lib host mkAssemblyScript true (boot Oddities.lost)))
    = [CallGetwd].
Proof.
  exact (proj1 (proj2 (Build_getwd_fails lib host mkAssemblyScript true
                         (boot Oddities.lost)
                         (SysError "getwd: no such file or directory") eq_refl))).
Defined.

Lemma Build_returns_compiler_result_witness :
  fst (Build lib host mkAssemblyScript true (boot ready)) = None /\
  has "/proj/bin/main.wasm"
      (m_files (machine (snd (Build lib host mkAssemblyScript true (boot ready)))))
    = true.
Proof.
  destruct (Build_returns_compiler_result lib host mkAssemblyScript true
              (boot ready)
              (mkWorld (with_dir "/proj/bin" ready)
                 [CallGetwd; CallIsDir "/proj/bin"; CallMkdirAll "/proj/bin" true] [])
              "/proj" ("/proj/node_modules/.bin" ++ LF)
              (with_dir "/proj/bin" ready)
              (with_file "/proj/bin/main.wasm" (with_dir "/proj/bin" ready))
              None ["compiled /proj/bin/main.wasm" ++ LF]
              eq_refl eq_refl eq_refl eq_refl)
    as (Hr & _ & Hm).
  split; [exact Hr|]. rewrite Hm. reflexivity.
Defined.

Lemma Build_error_shapes_witness :
  fst (Build lib host mkAssemblyScript false (boot readonly))
    = Some (Wrapf "error making bin directory"
              (SysError "mkdir /proj/bin: permission denied")) /\
  exists pwd e w1,
    os_Getwd host readonly = Ok pwd /\
    MakeDirectoryIfNotExists host (filepath_Join lib pwd "bin")
      (note CallGetwd (boot readonly)) = (Some e, w1).
Proof.
  split; [reflexivity|].
  destruct (Build_error_shapes lib host mkAssemblyScript false (boot readonly)
              _ eq_refl)
    as [(e & _ & Herr)|[(pwd & e & w1 & Hwd & Hmade & _)|
        [(pwd & w1 & e & s2 & _ & _ & _ & Herr)|
         (pwd & w1 & raw & s2 & o & s3 & _ & Hmade & _)]]].
  - discriminate Herr.
  - exists pwd, e, w1. split; [exact Hwd | exact Hmade].
  - discriminate Herr.
  - exists "/proj", (SysError "mkdir /proj/bin: permission denied"),
      (mkWorld readonly
         [CallGetwd; CallIsDir "/proj/bin"; CallMkdirAll "/proj/bin" false] []).
    split; reflexivity.
Defined.

Lemma Build_success_ran_compiler_witness :
  exists raw,
    last (calls (snd (Build lib host mkAssemblyScript false (boot ready)))) CallGetwd =
      CallExec (filepath_Join lib (strings_TrimSpace lib raw) "asc")
               (compiler_args lib "/proj" false) [] false /\
    fst (exec_Output host "npm" ["bin"] (with_dir "/proj/bin" ready)) = Ok raw.
Proof.
  destruct (Build_success_ran_compiler lib host mkAssemblyScript false (boot ready)
              eq_refl)
    as (pwd & w1 & raw & s2 & o & Hwd & Hmade & Hbin & _ & _ & Hlast).
  injection Hwd as <-. injection Hmade as <-.
  exists raw. split; [exact Hlast|].
  simpl in Hbin. injection Hbin as <- _. reflexivity.
Defined.
